(** * homeassistant.components.discovery

    A shallow embedding of [homeassistant/components/discovery.py] and the
    properties its specification states about it.

    The module is effectful Python: it mutates dict objects it is handed,
    calls the component loader, publishes on the event bus, takes a lock and
    may propagate exceptions.  It is embedded in a small monad [M] that
    threads an object store (so that aliasing of dicts is visible), writes a
    trace of the calls made to the outside world and carries an outcome that
    is either a normal return or a raised exception. *)

From stdpp Require Import gmap strings list fin_maps.

Open Scope string_scope.

(** ** Python values *)

(** Dict objects are mutable and live in the store; a value refers to one by
    its location.  Everything else the module handles is immutable. *)
Definition loc := positive.

#[warnings="-register-all"]
Inductive PyVal : Type :=
| VNone
| VBool (b : bool)
| VInt (z : Z)
| VStr (s : string)
| VTuple (items : list PyVal)
| VRef (l : loc).

(** A dict object: string keys, values of mixed shape. *)
Abbreviation Dict := (gmap string PyVal).

Inductive PyExn : Type :=
| TypeError (msg : string)
| KeyError (key : string)
| OtherError (name : string)
| DanglingRef (l : loc).
(* [DanglingRef] is not a Python exception: it is what the model answers when
   a reference points outside the store, which no Python program can build. *)

Inductive Outcome (A : Type) : Type :=
| Returned (a : A)
| Raised (e : PyExn).
Arguments Returned {A} a.
Arguments Raised {A} e.

(** [x is None] *)
Definition is_None (v : PyVal) : bool :=
  match v with VNone => true | _ => false end.

(** The name Python prints for the type of a value. *)
Definition type_name (v : PyVal) : string :=
  match v with
  | VNone => "NoneType"
  | VBool _ => "bool"
  | VInt _ => "int"
  | VStr _ => "str"
  | VTuple _ => "tuple"
  | VRef _ => "dict"
  end.

(** ** The outside world *)

(** The listener handed to the scanner: [new_service_listener], closed over
    the [config] that [setup] received. *)
Inductive ScanListener : Type :=
| NewServiceListener (config : PyVal).

(** What can be registered on the event bus: the two closures this module
    builds, and listeners of other modules, which are opaque here.  A
    callback passed to [listen] is opaque too and is known by a number. *)
Inductive Listener : Type :=
| DiscoveryEventListener (service : list string) (callback : nat)
| StartDiscovery (config : PyVal)
| ForeignListener (name : string).

Record Registration : Type := mkRegistration {
  reg_event_type : string;
  reg_listener : Listener;
  reg_once : bool
}.

Record Event : Type := mkEvent {
  event_type : string;
  data : Dict
}.

(** Calls that leave the module, in the order they are made. *)
Inductive Effect : Type :=
| LockAcquire
| LockRelease
| LogInfo (msg : string) (args : list PyVal)
| LogSetLevel (logger level : string)
| SetupComponent (component hass_config : PyVal)
| BusFire (event_type : string) (data : Dict)
| CallbackCall (callback : nat) (service discovered : PyVal)
| ForeignCall (name : string) (event_type : string)
| ScanCreate (interval : Z)
| ScanAddListener (l : ScanListener)
| ScanStart.

Record Store : Type := mkStore {
  heap : gmap loc Dict;
  bus : list Registration
}.

Definition set_heap (h : gmap loc Dict) (s : Store) : Store :=
  mkStore h (bus s).

Definition set_bus (b : list Registration) (s : Store) : Store :=
  mkStore (heap s) b.

(** ** The monad *)

Record Result (A : Type) : Type := mkResult {
  outcome : Outcome A;
  store : Store;
  effects : list Effect
}.
Arguments mkResult {A} _ _ _.
Arguments outcome {A} _.
Arguments store {A} _.
Arguments effects {A} _.

Definition M (A : Type) : Type := Store -> Result A.

Definition ret {A} (a : A) : M A :=
  fun s => mkResult (Returned a) s [].

Definition raise {A} (e : PyExn) : M A :=
  fun s => mkResult (Raised e) s [].

Definition bind {A B} (m : M A) (k : A -> M B) : M B :=
  fun s =>
    let r := m s in
    match outcome r with
    | Returned a =>
        let r' := k a (store r) in
        mkResult (outcome r') (store r') (effects r ++ effects r')
    | Raised e => mkResult (Raised e) (store r) (effects r)
    end.

Definition emit (e : Effect) : M unit :=
  fun s => mkResult (Returned tt) s [e].

Declare Scope py_scope.
Delimit Scope py_scope with py.
Notation "x <- c1 ;; c2" := (bind c1 (fun x => c2))
  (at level 100, c1 at next level, right associativity) : py_scope.
Notation "c1 ;; c2" := (bind c1 (fun _ => c2))
  (at level 100, right associativity) : py_scope.
Open Scope py_scope.

(** [with lock: body]: the lock is taken, the body runs, and the lock is
    given back on every way out of the body, a [return] and an exception
    included.  One run of the callback is followed from a free lock, so that
    taking it does not block. *)
Definition with_lock {A} (body : M A) : M A :=
  fun s =>
    let r := body s in
    mkResult (outcome r) (store r)
             (LockAcquire :: effects r ++ [LockRelease]).

(** ** Dict operations *)

(** A dict display [{k: v, ...}]: a new object at a location not in use. *)
Definition new_dict (d : Dict) : M PyVal :=
  fun s =>
    let l := fresh (dom (heap s)) in
    mkResult (Returned (VRef l)) (set_heap (<[l := d]> (heap s)) s) [].

(** [obj[key] = v] *)
Definition setitem (obj : PyVal) (key : string) (v : PyVal) : M unit :=
  fun s =>
    match obj with
    | VRef l =>
        match heap s !! l with
        | Some d =>
            mkResult (Returned tt) (set_heap (<[l := <[key := v]> d]> (heap s)) s) []
        | None => mkResult (Raised (DanglingRef l)) s []
        end
    | _ =>
        mkResult
          (Raised (TypeError ("'" +:+ type_name obj +:+
                              "' object does not support item assignment")))
          s []
    end.

(** [key in d], [d[key]] and [d.get(key)] on the dict of an event. *)
Definition dict_contains (key : string) (d : Dict) : bool :=
  bool_decide (is_Some (d !! key)).

Definition getitem (d : Dict) (key : string) : M PyVal :=
  match d !! key with
  | Some v => ret v
  | None => raise (KeyError key)
  end.

Definition dict_get (d : Dict) (key : string) : PyVal :=
  default VNone (d !! key).

(** [v in t] for a tuple [t] of strings: an item is found when it is equal
    to [v], and only a string is equal to a string. *)
Definition in_tuple (v : PyVal) (t : list string) : bool :=
  match v with
  | VStr s => bool_decide (s ∈ t)
  | _ => false
  end.

(** ** Constants *)

(** Modelled from the spec: [homeassistant/const.py] is not part of the
    sources at hand; the spec names the two fields of an event [service] and
    [discovered], the channel [PLATFORM_DISCOVERED] and the lifecycle signal
    "application started". *)
Definition ATTR_SERVICE : string := "service".
Definition ATTR_DISCOVERED : string := "discovered".
Definition EVENT_PLATFORM_DISCOVERED : string := "platform_discovered".
Definition EVENT_HOMEASSISTANT_START : string := "homeassistant_start".

Definition DOMAIN : string := "discovery".
Definition SCAN_INTERVAL : Z := 300.
Definition LOAD_PLATFORM : string := "load_platform".

Definition SERVICE_WEMO : string := "belkin_wemo".
Definition SERVICE_NETGEAR : string := "netgear_router".

(** A registry entry: [(component, platform)], the platform possibly [None]. *)
Abbreviation Route := (string * option string)%type.

Definition SERVICE_HANDLERS : gmap string Route :=
  list_to_map [
    (SERVICE_NETGEAR, ("device_tracker", None));
    (SERVICE_WEMO, ("wemo", None));
    ("philips_hue", ("light", Some "hue"));
    ("google_cast", ("media_player", Some "cast"));
    ("panasonic_viera", ("media_player", Some "panasonic_viera"));
    ("plex_mediaserver", ("media_player", Some "plex"));
    ("roku", ("media_player", Some "roku"));
    ("sonos", ("media_player", Some "sonos"));
    ("logitech_mediaserver", ("media_player", Some "squeezebox"))
  ].

Arguments SERVICE_HANDLERS : simpl never.

(** The Python object a registry entry is: a 2-tuple. *)
Definition route_val (r : Route) : PyVal :=
  VTuple [VStr (fst r); from_option VStr VNone (snd r)].

(** ** The module's functions *)

(** How [listen] is handed its services: "Service can be a string or a
    list/tuple". *)
Inductive ServiceArg : Type :=
| OneService (s : string)
| ManyServices (l : list string).

(** [hass.bus.listen] and [hass.bus.listen_once]: the registration is added
    after those already there. *)
Definition bus_listen (event_type : string) (l : Listener) : M unit :=
  fun s => mkResult (Returned tt)
                    (set_bus (bus s ++ [mkRegistration event_type l false]) s) [].

Definition bus_listen_once (event_type : string) (l : Listener) : M unit :=
  fun s => mkResult (Returned tt)
                    (set_bus (bus s ++ [mkRegistration event_type l true]) s) [].

(** [hass.bus.fire]: the request to publish, as the module makes it. *)
Definition bus_fire (event_type : string) (data : Dict) : M unit :=
  emit (BusFire event_type data).

(** The closure [discovery_event_listener] of [listen], over [service] (by
    now a tuple) and [callback].  The call of [callback] is recorded with
    its arguments; what the callback then does, an exception of its own
    included, is not followed. *)
Definition discovery_event_listener
    (service : list string) (callback : nat) (event : Event) : M unit :=
  cond <- (if dict_contains ATTR_SERVICE (data event)
           then v <- getitem (data event) ATTR_SERVICE ;;
                ret (in_tuple v service)
           else ret false) ;;
  if (cond : bool)
  then v <- getitem (data event) ATTR_SERVICE ;;
       emit (CallbackCall callback v (dict_get (data event) ATTR_DISCOVERED))
  else ret tt.

(** Lines 45 to 48 of [listen]: a string becomes a 1-tuple, a list or tuple
    becomes a tuple. *)
Definition service_tuple (service : ServiceArg) : list string :=
  match service with
  | OneService s => [s]
  | ManyServices l => l
  end.

Definition listen (service : ServiceArg) (callback : nat) : M unit :=
  let service := service_tuple service in
  bus_listen EVENT_PLATFORM_DISCOVERED (DiscoveryEventListener service callback).

Section Discovery.

(** [bootstrap.setup_component] is the component loader, an external
    collaborator: what it answers for a component and a configuration, a
    boolean or an exception, is left open.  What the loader itself does to
    [hass] (the listeners a component registers, what it writes) is not
    followed: the store below records the writes of this module only, and
    the results that follow speak of the trace and of those writes. *)
Variable setup_component : PyVal -> PyVal -> Outcome bool.

Definition call_setup_component (component hass_config : PyVal) : M bool :=
  emit (SetupComponent component hass_config) ;;
  match setup_component component hass_config with
  | Returned b => ret b
  | Raised e => raise e
  end.

Definition discover
    (service : string) (discovered component hass_config : PyVal) : M unit :=
  (if is_None component then ret tt
   else call_setup_component component hass_config ;; ret tt) ;;
  let data : Dict := {[ ATTR_SERVICE := VStr service ]} in
  let data : Dict :=
    if is_None discovered then data
    else <[ ATTR_DISCOVERED := discovered ]> data in
  bus_fire EVENT_PLATFORM_DISCOVERED data.

Definition load_platform
    (component platform : string) (info hass_config : PyVal) : M unit :=
  info <- (if is_None info
           then new_dict {[ LOAD_PLATFORM := VStr platform ]}
           else setitem info LOAD_PLATFORM (VStr platform) ;; ret info) ;;
  discover (LOAD_PLATFORM +:+ "." +:+ component) info (VStr component)
           hass_config.

(** The closure [new_service_listener] of [setup], over [config] (and over
    the lock and the logger).  The parameter [info] is rebound to the
    registry entry on the second line of the body, as in the source; a
    registry entry is a 2-tuple, never falsy, so that [not info] holds when
    the lookup gave [None] and only then. *)
Definition new_service_listener
    (config : PyVal) (service : string) (info : PyVal) : M unit :=
  with_lock (
    emit (LogInfo "Found new service: %s %s" [VStr service; info]) ;;
    let info := SERVICE_HANDLERS !! service in
    match info with
    | None => ret tt
    | Some (component, platform) =>
        let info := route_val (component, platform) in
        match platform with
        | None => discover service info config VNone
        | Some platform => load_platform component platform info config
        end
    end).

End Discovery.

(** The closure [start_discovery] of [setup]. *)
Definition start_discovery (config : PyVal) (event : Event) : M unit :=
  emit (ScanCreate SCAN_INTERVAL) ;;
  emit (ScanAddListener (NewServiceListener config)) ;;
  emit ScanStart.

(** [setup]: the logger lookup and the import of the scanner have no part
    in what follows and are left out; the lock made here is the one
    [new_service_listener] takes. *)
Definition setup (config : PyVal) : M bool :=
  emit (LogSetLevel "zeroconf" "CRITICAL") ;;
  bus_listen_once EVENT_HOMEASSISTANT_START (StartDiscovery config) ;;
  ret true.

(** ** The event bus *)

(** Running a registered listener on an event.  A listener of another
    module is only recorded as called. *)
Definition run_listener (l : Listener) (event : Event) : M unit :=
  match l with
  | DiscoveryEventListener service callback =>
      discovery_event_listener service callback event
  | StartDiscovery config => start_discovery config event
  | ForeignListener name => emit (ForeignCall name (event_type event))
  end.

Fixpoint run_listeners (ls : list Listener) (event : Event) : M unit :=
  match ls with
  | [] => ret tt
  | l :: ls => run_listener l event ;; run_listeners ls event
  end.

Definition listens_to (t : string) (r : Registration) : bool :=
  bool_decide (reg_event_type r = t).

(** Modelled from the spec: the event bus ([homeassistant/core.py]) is not
    part of the sources at hand.  The spec gives it "one-shot and
    persistent listener registration" and "synchronous, in-order delivery
    to registered listeners": an event goes to the listeners registered for
    its type, in the order of registration, and a one-shot listener is
    taken off the bus by the event it receives. *)
Definition bus_deliver (event : Event) : M unit :=
  fun s =>
    let t := event_type event in
    let hit := filter (fun r => listens_to t r = true) (bus s) in
    let kept := filter (fun r => (listens_to t r && reg_once r) = false) (bus s) in
    run_listeners (reg_listener <$> hit) event (set_bus kept s).

(** Events published one after the other. *)
Fixpoint deliver_all (events : list Event) : M unit :=
  match events with
  | [] => ret tt
  | e :: es => bus_deliver e ;; deliver_all es
  end.

(** ** Reading a trace *)

Definition is_fire (e : Effect) : bool :=
  match e with BusFire _ _ => true | _ => false end.

Definition is_setup_component (e : Effect) : bool :=
  match e with SetupComponent _ _ => true | _ => false end.

Definition is_scan_start (e : Effect) : bool :=
  match e with ScanStart => true | _ => false end.

(** The events fired and the component loads asked for in a trace. *)
Definition fired (tr : list Effect) : list Effect :=
  filter (fun e => is_fire e = true) tr.

Definition loads (tr : list Effect) : list Effect :=
  filter (fun e => is_setup_component e = true) tr.

(** The calls of a trace made while the lock is not held, [held] telling
    whether it is held at the start. *)
Fixpoint outside_lock (held : bool) (tr : list Effect) : list Effect :=
  match tr with
  | [] => []
  | LockAcquire :: tr => outside_lock true tr
  | LockRelease :: tr => outside_lock false tr
  | e :: tr => if held then outside_lock held tr else e :: outside_lock held tr
  end.

(** The calls of a trace made while the lock is held. *)
Fixpoint under_lock (held : bool) (tr : list Effect) : list Effect :=
  match tr with
  | [] => []
  | LockAcquire :: tr => under_lock true tr
  | LockRelease :: tr => under_lock false tr
  | e :: tr => if held then e :: under_lock held tr else under_lock held tr
  end.

(** Whether the lock is held after a trace. *)
Fixpoint lock_after (held : bool) (tr : list Effect) : bool :=
  match tr with
  | [] => held
  | LockAcquire :: tr => lock_after true tr
  | LockRelease :: tr => lock_after false tr
  | _ :: tr => lock_after held tr
  end.

(** Whether no event of a trace is fired before a call of the component
    loader has returned; [loaded] tells whether one has returned already. *)
Fixpoint loads_precede_fires
    (setup_component : PyVal -> PyVal -> Outcome bool)
    (loaded : bool) (tr : list Effect) : bool :=
  match tr with
  | [] => true
  | SetupComponent c h :: tr =>
      loads_precede_fires setup_component
        (loaded || match setup_component c h with
                   | Returned _ => true
                   | Raised _ => false
                   end) tr
  | BusFire _ _ :: tr => loaded && loads_precede_fires setup_component loaded tr
  | _ :: tr => loads_precede_fires setup_component loaded tr
  end.

Definition scan_starts (tr : list Effect) : nat :=
  length (filter (fun e => is_scan_start e = true) tr).

Definition is_lock_op (e : Effect) : bool :=
  match e with LockAcquire | LockRelease => true | _ => false end.

(** The dict a value refers to, if it refers to one. *)
Definition deref (s : Store) (v : PyVal) : option Dict :=
  match v with
  | VRef l => heap s !! l
  | _ => None
  end.

(** The payload [discover] hands to the bus (lines 63 to 68). *)
Definition discover_data (service : string) (discovered : PyVal) : Dict :=
  if is_None discovered then {[ ATTR_SERVICE := VStr service ]}
  else <[ ATTR_DISCOVERED := discovered ]> {[ ATTR_SERVICE := VStr service ]}.

(** The log call that opens [new_service_listener] (line 114). *)
Definition found_new_service (service : string) (info : PyVal) : Effect :=
  LogInfo "Found new service: %s %s" [VStr service; info].

Definition is_scan_effect (e : Effect) : bool :=
  match e with
  | ScanCreate _ | ScanAddListener _ | ScanStart => true
  | _ => false
  end.

(** What a trace does to the scanner. *)
Definition scan_effects (tr : list Effect) : list Effect :=
  filter (fun e => is_scan_effect e = true) tr.

(** No lock is taken or given back in a trace. *)
Definition lock_free (tr : list Effect) : Prop :=
  Forall (fun e => is_lock_op e = false) tr.

Definition is_start_discovery (l : Listener) : bool :=
  match l with StartDiscovery _ => true | _ => false end.

(** No [start_discovery] is registered on a bus. *)
Definition no_scan_starter (regs : list Registration) : bool :=
  forallb (fun r => negb (is_start_discovery (reg_listener r))) regs.

(** What [start_discovery] does (lines 132 to 134). *)
Definition scan_started (config : PyVal) : list Effect :=
  [ScanCreate SCAN_INTERVAL; ScanAddListener (NewServiceListener config); ScanStart].

(** What a listener does to the scanner when it is run. *)
Definition scan_of (l : Listener) : list Effect :=
  match l with
  | StartDiscovery config => scan_started config
  | _ => []
  end.

(** The registration [setup] makes (line 136). *)
Definition start_registration (config : PyVal) : Registration :=
  mkRegistration EVENT_HOMEASSISTANT_START (StartDiscovery config) true.

(** ** Sample inputs *)

(** A loader that finds every component loaded. *)
Definition always_loaded : PyVal -> PyVal -> Outcome bool :=
  fun _ _ => Returned true.

(** A loader that fails on every component. *)
Definition never_loaded : PyVal -> PyVal -> Outcome bool :=
  fun _ _ => Raised (OtherError "ImportError").

(** A store with the scanner's report [{"host": "10.0.0.5"}] at location 1
    and the application's configuration, an empty dict, at location 2. *)
Definition ex_info : PyVal := VRef 1%positive.
Definition ex_config : PyVal := VRef 2%positive.
Definition ex_store : Store :=
  mkStore {[ 1%positive := {[ "host" := VStr "10.0.0.5" ]};
             2%positive := ∅ ]} [].

(** An event [{service: service, discovered: info}] on the discovery
    channel, [info] being the report above. *)
Definition ex_event (service : string) : Event :=
  mkEvent EVENT_PLATFORM_DISCOVERED
          {[ ATTR_SERVICE := VStr service; ATTR_DISCOVERED := ex_info ]}.

(** * What the functions compute *)

Section Equations.

Variable setup_component : PyVal -> PyVal -> Outcome bool.

Lemma discover_no_component service discovered hass_config s :
  discover setup_component service discovered VNone hass_config s =
  mkResult (Returned tt) s
           [BusFire EVENT_PLATFORM_DISCOVERED (discover_data service discovered)].
Proof. reflexivity. Qed.

Lemma discover_component service discovered component hass_config s :
  is_None component = false ->
  discover setup_component service discovered component hass_config s =
  match setup_component component hass_config with
  | Returned _ =>
      mkResult (Returned tt) s
               [SetupComponent component hass_config;
                BusFire EVENT_PLATFORM_DISCOVERED (discover_data service discovered)]
  | Raised e => mkResult (Raised e) s [SetupComponent component hass_config]
  end.
Proof.
  intros Hc. unfold discover, call_setup_component, bind, emit, bus_fire, ret, raise.
  rewrite Hc. cbn.
  destruct (setup_component component hass_config); reflexivity.
Qed.

Lemma load_platform_none component platform hass_config s :
  load_platform setup_component component platform VNone hass_config s =
  let l := fresh (dom (heap s)) in
  let s' := set_heap (<[l := {[ LOAD_PLATFORM := VStr platform ]}]> (heap s)) s in
  discover setup_component (LOAD_PLATFORM +:+ "." +:+ component) (VRef l)
           (VStr component) hass_config s'.
Proof.
  unfold load_platform, bind, new_dict. cbn.
  destruct (discover _ _ _ _ _ _) as [o st ef]. reflexivity.
Qed.

Lemma load_platform_dict component platform l d hass_config s :
  heap s !! l = Some d ->
  load_platform setup_component component platform (VRef l) hass_config s =
  discover setup_component (LOAD_PLATFORM +:+ "." +:+ component) (VRef l)
           (VStr component) hass_config
           (set_heap (<[l := <[LOAD_PLATFORM := VStr platform]> d]> (heap s)) s).
Proof.
  intros Hl. unfold load_platform, bind, setitem, ret. cbn. rewrite Hl. cbn.
  destruct (discover _ _ _ _ _ _) as [o st ef]. reflexivity.
Qed.

Lemma load_platform_not_dict component platform info hass_config s :
  is_None info = false ->
  (forall l, info <> VRef l) ->
  load_platform setup_component component platform info hass_config s =
  mkResult
    (Raised (TypeError ("'" +:+ type_name info +:+
                        "' object does not support item assignment")))
    s [].
Proof.
  intros Hn Hr. unfold load_platform, bind, setitem.
  destruct info; try discriminate; try reflexivity.
  exfalso. eapply Hr. reflexivity.
Qed.

Lemma load_platform_dangling component platform l hass_config s :
  heap s !! l = None ->
  load_platform setup_component component platform (VRef l) hass_config s =
  mkResult (Raised (DanglingRef l)) s [].
Proof.
  intros Hl. unfold load_platform, bind, setitem. cbn. rewrite Hl. reflexivity.
Qed.

Lemma new_service_listener_unknown config service info s :
  SERVICE_HANDLERS !! service = None ->
  new_service_listener setup_component config service info s =
  mkResult (Returned tt) s
           [LockAcquire; found_new_service service info; LockRelease].
Proof.
  intros Hs. unfold new_service_listener, with_lock, bind, emit, ret.
  rewrite Hs. reflexivity.
Qed.

Lemma new_service_listener_no_platform config service info component s :
  SERVICE_HANDLERS !! service = Some (component, None) ->
  new_service_listener setup_component config service info s =
  with_lock (emit (found_new_service service info) ;;
             discover setup_component service
                      (VTuple [VStr component; VNone]) config VNone) s.
Proof.
  intros Hs. unfold new_service_listener, with_lock, bind.
  rewrite Hs. reflexivity.
Qed.

(** Every registered service without a platform: the loader is called with
    [config] as the component and the registry entry is what is published. *)
Lemma new_service_listener_no_platform_trace config service info component s :
  SERVICE_HANDLERS !! service = Some (component, None) ->
  is_None config = false ->
  effects (new_service_listener setup_component config service info s) =
    LockAcquire :: found_new_service service info ::
    SetupComponent config VNone ::
    match setup_component config VNone with
    | Returned _ =>
        [BusFire EVENT_PLATFORM_DISCOVERED
                 (discover_data service (VTuple [VStr component; VNone]));
         LockRelease]
    | Raised _ => [LockRelease]
    end.
Proof.
  intros Hs Hc. rewrite (new_service_listener_no_platform _ _ _ component) by exact Hs.
  unfold with_lock, bind, emit. cbn -[discover].
  rewrite discover_component by exact Hc.
  destruct (setup_component config VNone); reflexivity.
Qed.

Lemma new_service_listener_platform config service info component platform s :
  SERVICE_HANDLERS !! service = Some (component, Some platform) ->
  new_service_listener setup_component config service info s =
  mkResult
    (Raised (TypeError "'tuple' object does not support item assignment"))
    s [LockAcquire; found_new_service service info; LockRelease].
Proof.
  intros Hs. unfold new_service_listener, with_lock, bind, emit.
  rewrite Hs. cbn -[load_platform].
  rewrite load_platform_not_dict; [reflexivity..|discriminate].
Qed.

End Equations.

(** * The dispatcher *)

(** C1, as the code has it.  The report is [("belkin_wemo", info)] with
    [info] the dict at location 1, and [setup] was given the dict at location
    2 as [config].  The loader is called once, with [config] where the
    component is expected and [None] where the configuration is expected, and
    the event that follows carries the registry entry [("wemo", None)] as
    [discovered]: the parameter [info] was rebound to the registry entry, and
    [config] was passed in the position of [component]. *)
Theorem C1_new_service_listener_wemo
    (setup_component : PyVal -> PyVal -> Outcome bool) :
  let r := new_service_listener setup_component ex_config SERVICE_WEMO ex_info
                                ex_store in
  SERVICE_HANDLERS !! SERVICE_WEMO = Some ("wemo", None) /\
  loads (effects r) = [SetupComponent ex_config VNone] /\
  fired (effects r) =
    match setup_component ex_config VNone with
    | Returned _ =>
        [BusFire EVENT_PLATFORM_DISCOVERED
                 {[ ATTR_SERVICE := VStr SERVICE_WEMO;
                    ATTR_DISCOVERED := VTuple [VStr "wemo"; VNone] ]}]
    | Raised _ => []
    end /\
  effects r =
    LockAcquire :: found_new_service SERVICE_WEMO ex_info ::
    SetupComponent ex_config VNone ::
    match setup_component ex_config VNone with
    | Returned _ =>
        [BusFire EVENT_PLATFORM_DISCOVERED
                 {[ ATTR_SERVICE := VStr SERVICE_WEMO;
                    ATTR_DISCOVERED := VTuple [VStr "wemo"; VNone] ]};
         LockRelease]
    | Raised _ => [LockRelease]
    end.
Proof.
  intros r. subst r. split; [vm_compute; reflexivity|].
  rewrite (new_service_listener_no_platform_trace _ _ _ _ "wemo")
    by (vm_compute; reflexivity).
  destruct (setup_component ex_config VNone) as [b|e];
    repeat split; reflexivity.
Qed.

(** C2, as the code has it.  The report is [("sonos", info)] with [info] the
    dict [{"host": "10.0.0.5"}].  [load_platform] is handed the registry
    entry [("media_player", "sonos")] in place of the report and fails on
    [info[LOAD_PLATFORM] = platform], a tuple taking no item assignment: the
    callback raises [TypeError], the loader is not called and no event is
    fired.  The caller's dict is left as it was. *)
Theorem C2_new_service_listener_sonos
    (setup_component : PyVal -> PyVal -> Outcome bool) :
  let r := new_service_listener setup_component ex_config "sonos" ex_info
                                ex_store in
  outcome r =
    Raised (TypeError "'tuple' object does not support item assignment") /\
  effects r = [LockAcquire; found_new_service "sonos" ex_info; LockRelease] /\
  fired (effects r) = [] /\
  loads (effects r) = [] /\
  store r = ex_store.
Proof.
  intros r. subst r.
  rewrite (new_service_listener_platform _ _ _ _ "media_player" "sonos")
    by (vm_compute; reflexivity).
  repeat split; reflexivity.
Qed.

(** C5.  A service that is not in the registry is ignored: the callback
    returns normally, fires no event, asks for no component and leaves the
    store as it was; all it does is log the report, under the lock. *)
Theorem C5_unregistered_service_ignored
    (setup_component : PyVal -> PyVal -> Outcome bool)
    (config : PyVal) (service : string) (info : PyVal) (s : Store) :
  SERVICE_HANDLERS !! service = None ->
  let r := new_service_listener setup_component config service info s in
  outcome r = Returned tt /\
  fired (effects r) = [] /\
  loads (effects r) = [] /\
  effects r = [LockAcquire; found_new_service service info; LockRelease] /\
  store r = s.
Proof.
  intros Hs r. subst r. rewrite new_service_listener_unknown by exact Hs.
  repeat split; reflexivity.
Qed.

Lemma C5_unregistered_service_ignored_witness :
  SERVICE_HANDLERS !! "apple_tv" = None /\
  let r := new_service_listener always_loaded ex_config "apple_tv" ex_info
                                ex_store in
  outcome r = Returned tt /\
  fired (effects r) = [] /\
  loads (effects r) = [] /\
  effects r = [LockAcquire; found_new_service "apple_tv" ex_info; LockRelease] /\
  store r = ex_store.
Proof.
  split.
  - vm_compute. reflexivity.
  - apply (C5_unregistered_service_ignored always_loaded ex_config "apple_tv"
             ex_info ex_store).
    vm_compute. reflexivity.
Defined.

(** * The platform loader helper *)

(** C3, as the spec states it, fails.  [load_platform] is called with the
    dict at location 1, [{"host": "10.0.0.5"}], as [info].  After the call
    the caller's dict has the key [load_platform] it did not have before; the
    event's [discovered] is the caller's dict itself, by reference; and when
    the caller then sets [info["host"] = "changed"], the dict reached from
    the event's payload shows the change. *)
Lemma C3_load_platform_aliases_info :
  let r := load_platform always_loaded "media_player" "sonos" ex_info ex_config
                         ex_store in
  let later := store (setitem ex_info "host" (VStr "changed") (store r)) in
  deref (store r) ex_info <> deref ex_store ex_info /\
  fired (effects r) =
    [BusFire EVENT_PLATFORM_DISCOVERED
             {[ ATTR_SERVICE := VStr "load_platform.media_player";
                ATTR_DISCOVERED := ex_info ]}] /\
  deref later ex_info <> deref (store r) ex_info.
Proof.
  vm_compute. repeat split; try discriminate; reflexivity.
Qed.

(** C3, amended.  Given a dict as [info], [load_platform] sets
    [info[LOAD_PLATFORM] = platform] on the caller's own dict and hands that
    same object to the bus: after the call the caller's dict is the original
    with [load_platform] overwritten, its other keys as they were; the event
    fired, if the loader returned, holds as [discovered] the reference it was
    given; and what the caller writes to the dict afterwards is what is found
    behind that reference. *)
Theorem C3_load_platform_updates_info_in_place
    (setup_component : PyVal -> PyVal -> Outcome bool)
    (component platform : string) (l : loc) (d : Dict) (hass_config : PyVal)
    (s : Store) :
  heap s !! l = Some d ->
  let r := load_platform setup_component component platform (VRef l)
                         hass_config s in
  deref (store r) (VRef l) = Some (<[LOAD_PLATFORM := VStr platform]> d) /\
  (forall k, k <> LOAD_PLATFORM ->
     (<[LOAD_PLATFORM := VStr platform]> d) !! k = d !! k) /\
  fired (effects r) =
    match setup_component (VStr component) hass_config with
    | Returned _ =>
        [BusFire EVENT_PLATFORM_DISCOVERED
                 (<[ ATTR_DISCOVERED := VRef l ]>
                    {[ ATTR_SERVICE := VStr (LOAD_PLATFORM +:+ "." +:+ component) ]})]
    | Raised _ => []
    end /\
  (forall k v,
     deref (store (setitem (VRef l) k v (store r))) (VRef l) =
     Some (<[k := v]> (<[LOAD_PLATFORM := VStr platform]> d))).
Proof.
  intros Hl r. subst r. rewrite (load_platform_dict _ _ _ _ d) by exact Hl.
  rewrite discover_component by reflexivity.
  assert (Hlater : forall k v,
    deref (store (setitem (VRef l) k v
                    (set_heap (<[l := <[LOAD_PLATFORM := VStr platform]> d]> (heap s)) s)))
          (VRef l) =
    Some (<[k := v]> (<[LOAD_PLATFORM := VStr platform]> d))).
  { intros k v. unfold setitem, deref, set_heap. cbn [heap bus].
    rewrite lookup_insert_eq. cbn [store heap]. apply lookup_insert_eq. }
  unfold deref.
  destruct (setup_component (VStr component) hass_config) as [b|e];
    cbn [store effects heap set_heap].
  - split; [apply lookup_insert_eq|]. split.
    + intros k Hk. apply lookup_insert_ne. congruence.
    + split; [reflexivity | exact Hlater].
  - split; [apply lookup_insert_eq|]. split.
    + intros k Hk. apply lookup_insert_ne. congruence.
    + split; [reflexivity | exact Hlater].
Qed.

Lemma C3_load_platform_updates_info_in_place_witness :
  heap ex_store !! 1%positive = Some {[ "host" := VStr "10.0.0.5" ]} /\
  deref (store (load_platform always_loaded "media_player" "sonos" ex_info
                              ex_config ex_store)) ex_info =
  Some (<[LOAD_PLATFORM := VStr "sonos"]> {[ "host" := VStr "10.0.0.5" ]}).
Proof.
  split.
  - vm_compute. reflexivity.
  - refine (proj1 (C3_load_platform_updates_info_in_place always_loaded
                     "media_player" "sonos" 1%positive
                     {[ "host" := VStr "10.0.0.5" ]} ex_config ex_store _)).
    vm_compute. reflexivity.
Defined.

(** C4.  Called without [info], and the loader returning, [load_platform]
    fires exactly one event; its [discovered] is a dict made by the call, at
    a location that was free before, and that dict is [{load_platform:
    platform}] and nothing else.  The event's [service] is ["load_platform."
    + component], the loader was asked once, for [component], and no object
    that existed before has changed. *)
Theorem C4_load_platform_without_info
    (setup_component : PyVal -> PyVal -> Outcome bool)
    (component platform : string) (hass_config : PyVal) (s : Store) (b : bool) :
  setup_component (VStr component) hass_config = Returned b ->
  let r := load_platform setup_component component platform VNone hass_config s in
  exists l : loc,
    heap s !! l = None /\
    outcome r = Returned tt /\
    fired (effects r) =
      [BusFire EVENT_PLATFORM_DISCOVERED
               (<[ ATTR_DISCOVERED := VRef l ]>
                  {[ ATTR_SERVICE := VStr (LOAD_PLATFORM +:+ "." +:+ component) ]})] /\
    deref (store r) (VRef l) = Some {[ LOAD_PLATFORM := VStr platform ]} /\
    loads (effects r) = [SetupComponent (VStr component) hass_config] /\
    (forall l', l' <> l -> heap (store r) !! l' = heap s !! l').
Proof.
  intros Hb r. subst r. rewrite load_platform_none. cbv zeta.
  rewrite discover_component by reflexivity. rewrite Hb. cbn.
  exists (fresh (dom (heap s))).
  assert (Hfresh : heap s !! fresh (dom (heap s)) = None).
  { apply not_elem_of_dom. apply is_fresh. }
  split; [exact Hfresh|]. split; [reflexivity|]. split; [reflexivity|].
  split; [apply lookup_insert_eq|]. split; [reflexivity|].
  intros l' Hl'. apply lookup_insert_ne. congruence.
Qed.

Lemma C4_load_platform_without_info_witness :
  always_loaded (VStr "light") ex_config = Returned true /\
  exists l : loc,
    fired (effects (load_platform always_loaded "light" "hue" VNone ex_config
                                  ex_store)) =
      [BusFire EVENT_PLATFORM_DISCOVERED
               (<[ ATTR_DISCOVERED := VRef l ]>
                  {[ ATTR_SERVICE := VStr (LOAD_PLATFORM +:+ "." +:+ "light") ]})] /\
    deref (store (load_platform always_loaded "light" "hue" VNone ex_config
                                ex_store)) (VRef l) =
      Some {[ LOAD_PLATFORM := VStr "hue" ]}.
Proof.
  split; [reflexivity|].
  destruct (C4_load_platform_without_info always_loaded "light" "hue" ex_config
              ex_store true eq_refl) as (l & _ & _ & Hf & Hd & _).
  exists l. split; [exact Hf | exact Hd].
Defined.

(** C7.  Where a component is loaded and an event published, the loader is
    called first and has returned by the time the event is fired.  [discover]
    with a [component] that is not [None] calls the loader for that
    component, and fires its event after that and only if the loader
    returned.  [load_platform], given no [info] or a dict, calls the loader
    for [component] and fires its event after that and only if the loader
    returned; given anything else it raises [TypeError] on the item
    assignment and neither loads nor fires.  In no case does an event come
    before a loader call that returned. *)
Theorem C7_load_precedes_fire
    (setup_component : PyVal -> PyVal -> Outcome bool)
    (service : string) (discovered component hass_config : PyVal) (s : Store)
    (component' platform : string) (info hass_config' : PyVal) (s' : Store) :
  component <> VNone ->
  let r := discover setup_component service discovered component hass_config s in
  let r' := load_platform setup_component component' platform info
                          hass_config' s' in
  let loaded_then_fired :=
    exists d : Dict,
      effects r' =
        SetupComponent (VStr component') hass_config' ::
        match setup_component (VStr component') hass_config' with
        | Returned _ => [BusFire EVENT_PLATFORM_DISCOVERED d]
        | Raised _ => []
        end in
  ((exists d : Dict,
      effects r =
        SetupComponent component hass_config ::
        match setup_component component hass_config with
        | Returned _ => [BusFire EVENT_PLATFORM_DISCOVERED d]
        | Raised _ => []
        end) /\
   loads_precede_fires setup_component false (effects r) = true) /\
  (match info with
   | VNone => loaded_then_fired
   | VRef l =>
       match heap s' !! l with
       | Some _ => loaded_then_fired
       | None => effects r' = [] /\ outcome r' = Raised (DanglingRef l)
       end
   | _ => effects r' = [] /\ exists msg, outcome r' = Raised (TypeError msg)
   end /\
   loads_precede_fires setup_component false (effects r') = true).
Proof.
  intros Hc r r' loaded_then_fired. subst r r' loaded_then_fired. split.
  - rewrite discover_component by (by destruct component).
    destruct (setup_component component hass_config) as [b|e] eqn:Hsc;
      cbn; rewrite ?Hsc; (split; [(exists ∅; reflexivity) || (eexists; reflexivity) | reflexivity]).
  - destruct info as [| | | | |l].
    1: { rewrite load_platform_none. cbv zeta.
         rewrite discover_component by reflexivity.
         destruct (setup_component (VStr component') hass_config') as [b|e] eqn:Hsc;
           cbn; rewrite ?Hsc; (split; [(exists ∅; reflexivity) || (eexists; reflexivity) | reflexivity]). }
    5: { destruct (heap s' !! l) as [d|] eqn:Hl.
         - rewrite (load_platform_dict _ _ _ _ d) by exact Hl.
           rewrite discover_component by reflexivity.
           destruct (setup_component (VStr component') hass_config') as [b|e] eqn:Hsc;
             cbn; rewrite ?Hsc; (split; [(exists ∅; reflexivity) || (eexists; reflexivity) | reflexivity]).
         - rewrite load_platform_dangling by exact Hl. cbn. by repeat split. }
    all: rewrite load_platform_not_dict by (reflexivity || discriminate);
      cbn; (split; [split; [reflexivity | eexists; reflexivity] | reflexivity]).
Qed.

Lemma C7_load_precedes_fire_witness :
  VStr "wemo" <> VNone /\
  (exists d : Dict,
     effects (discover always_loaded SERVICE_WEMO ex_info (VStr "wemo")
                       ex_config ex_store) =
     [SetupComponent (VStr "wemo") ex_config;
      BusFire EVENT_PLATFORM_DISCOVERED d]) /\
  (exists d : Dict,
     effects (load_platform always_loaded "light" "hue" ex_info ex_config
                            ex_store) =
     [SetupComponent (VStr "light") ex_config;
      BusFire EVENT_PLATFORM_DISCOVERED d]).
Proof.
  split; [discriminate|].
  pose proof (C7_load_precedes_fire always_loaded SERVICE_WEMO ex_info
                (VStr "wemo") ex_config ex_store "light" "hue" ex_info
                ex_config ex_store) as H.
  cbv zeta in H. destruct H as [[H1 _] [H2 _]]; [discriminate|].
  split; [exact H1 | exact H2].
Defined.

(** * The subscription API *)

Lemma discovery_event_listener_run service callback event s :
  discovery_event_listener service callback event s =
  match data event !! ATTR_SERVICE with
  | Some v =>
      if in_tuple v service
      then mkResult (Returned tt) s
                    [CallbackCall callback v (dict_get (data event) ATTR_DISCOVERED)]
      else mkResult (Returned tt) s []
  | None => mkResult (Returned tt) s []
  end.
Proof.
  unfold discovery_event_listener, dict_contains, getitem, bind, ret, emit.
  destruct (data event !! ATTR_SERVICE) as [v|] eqn:Hv.
  - rewrite bool_decide_eq_true_2 by eauto. cbn.
    destruct (in_tuple v service); reflexivity.
  - rewrite bool_decide_eq_false_2 by (intros [? ?]; discriminate). reflexivity.
Qed.

Lemma in_tuple_spec v t :
  in_tuple v t = true <-> exists x, v = VStr x /\ x ∈ t.
Proof.
  split.
  - destruct v; cbn; try discriminate. intros H%bool_decide_eq_true. eauto.
  - intros (x & -> & Hx). cbn. by apply bool_decide_eq_true.
Qed.

(** C6.  [listen service callback] adds one persistent registration for
    [EVENT_PLATFORM_DISCOVERED] and nothing else.  The listener it registers,
    handed an event with a [service] field, calls [callback] exactly once,
    with that field and the event's [discovered] ([None] when the event has
    none), when the field is one of the requested services: the string
    itself when a string was given, a member of the list when a list was
    given.  When the field is not one of them the listener returns without
    any call. *)
Theorem C6_listen_filters_on_service
    (service : ServiceArg) (callback : nat) (s : Store)
    (event : Event) (v : PyVal) (s' : Store) :
  data event !! ATTR_SERVICE = Some v ->
  let registered := listen service callback s in
  let requested (x : string) : Prop :=
    match service with
    | OneService s0 => x = s0
    | ManyServices l => x ∈ l
    end in
  let discovered : PyVal :=
    match data event !! ATTR_DISCOVERED with
    | Some d => d
    | None => VNone
    end in
  (outcome registered = Returned tt /\
   effects registered = [] /\
   heap (store registered) = heap s) /\
  exists services : list string,
    bus (store registered) =
      (bus s ++ [mkRegistration EVENT_PLATFORM_DISCOVERED
                   (DiscoveryEventListener services callback) false])%list /\
    ((exists x, v = VStr x /\ requested x) ->
     effects (discovery_event_listener services callback event s') =
     [CallbackCall callback v discovered]) /\
    (~ (exists x, v = VStr x /\ requested x) ->
     discovery_event_listener services callback event s' =
     mkResult (Returned tt) s' []).
Proof.
  intros Hv registered requested discovered. subst registered.
  split; [by repeat split|].
  exists (service_tuple service). split; [reflexivity|].
  assert (Hreq : forall x, requested x <-> x ∈ service_tuple service).
  { intros x. subst requested. destruct service as [s0|l]; cbn.
    - by rewrite list_elem_of_singleton.
    - reflexivity. }
  rewrite discovery_event_listener_run, Hv.
  destruct (in_tuple v (service_tuple service)) eqn:Hin; cbn [effects].
  - split.
    + intros _. unfold dict_get. subst discovered.
      by destruct (data event !! ATTR_DISCOVERED).
    + intros Hno. exfalso. apply Hno.
      apply in_tuple_spec in Hin as (x & -> & Hx). exists x.
      split; [reflexivity | by apply Hreq].
  - split; [|reflexivity].
    intros (x & -> & Hx). apply Hreq in Hx.
    assert (in_tuple (VStr x) (service_tuple service) = true)
      by (apply in_tuple_spec; eauto).
    congruence.
Qed.

Lemma C6_listen_filters_on_service_witness :
  data (ex_event "a") !! ATTR_SERVICE = Some (VStr "a") /\
  exists services : list string,
    bus (store (listen (ManyServices ["a"; "b"]) 7 ex_store)) =
      [mkRegistration EVENT_PLATFORM_DISCOVERED
                      (DiscoveryEventListener services 7) false] /\
    effects (discovery_event_listener services 7 (ex_event "a") ex_store) =
      [CallbackCall 7 (VStr "a") ex_info].
Proof.
  split; [vm_compute; reflexivity|].
  pose proof (C6_listen_filters_on_service (ManyServices ["a"; "b"]) 7 ex_store
                (ex_event "a") (VStr "a") ex_store) as H.
  cbv zeta in H.
  destruct H as (_ & services & Hbus & Hcall & _); [vm_compute; reflexivity|].
  exists services. split; [exact Hbus|].
  apply Hcall. exists "a". split; [reflexivity | apply list_elem_of_here].
Defined.

(** The example of the spec, through the bus: after [listen(["a","b"], cb)]
    on a bus with no other listener, publishing [service == "c"] calls
    nothing and publishing [service == "a"] calls [cb("a", discovered)]
    once. *)
Lemma listen_a_b_example :
  let s := store (listen (ManyServices ["a"; "b"]) 7 ex_store) in
  effects (bus_deliver (ex_event "c") s) = [] /\
  effects (bus_deliver (ex_event "a") s) = [CallbackCall 7 (VStr "a") ex_info].
Proof. vm_compute. split; reflexivity. Qed.

(** C10.  The listener of [listen] looks for the [service] key before it
    reads it: an event without that key makes it return normally without
    calling [callback].  An event whose [service] is requested but which has
    no [discovered] key makes it call [callback] with [None] as second
    argument, and return normally. *)
Theorem C10_listener_tolerates_missing_keys
    (service : ServiceArg) (callback : nat)
    (no_service no_discovered : Event) (x : string) (s : Store) :
  data no_service !! ATTR_SERVICE = None ->
  data no_discovered !! ATTR_SERVICE = Some (VStr x) ->
  x ∈ service_tuple service ->
  data no_discovered !! ATTR_DISCOVERED = None ->
  discovery_event_listener (service_tuple service) callback no_service s =
    mkResult (Returned tt) s [] /\
  discovery_event_listener (service_tuple service) callback no_discovered s =
    mkResult (Returned tt) s [CallbackCall callback (VStr x) VNone].
Proof.
  intros Hns Hnd Hx Hd. rewrite !discovery_event_listener_run, Hns, Hnd.
  split; [reflexivity|]. cbn. rewrite bool_decide_eq_true_2 by exact Hx.
  unfold dict_get. rewrite Hd. reflexivity.
Qed.

Lemma C10_listener_tolerates_missing_keys_witness :
  discovery_event_listener (service_tuple (OneService "a")) 7
    (mkEvent EVENT_PLATFORM_DISCOVERED {[ "other" := VInt 1 ]}) ex_store =
    mkResult (Returned tt) ex_store [] /\
  discovery_event_listener (service_tuple (OneService "a")) 7
    (mkEvent EVENT_PLATFORM_DISCOVERED {[ ATTR_SERVICE := VStr "a" ]}) ex_store =
    mkResult (Returned tt) ex_store [CallbackCall 7 (VStr "a") VNone].
Proof.
  apply (C10_listener_tolerates_missing_keys (OneService "a") 7
           (mkEvent EVENT_PLATFORM_DISCOVERED {[ "other" := VInt 1 ]})
           (mkEvent EVENT_PLATFORM_DISCOVERED {[ ATTR_SERVICE := VStr "a" ]})
           "a" ex_store).
  - vm_compute. reflexivity.
  - vm_compute. reflexivity.
  - cbn. apply list_elem_of_here.
  - vm_compute. reflexivity.
Defined.

(** * The lock *)

Lemma discover_lock_free setup_component service discovered component hass_config s :
  lock_free (effects (discover setup_component service discovered component
                               hass_config s)).
Proof.
  destruct (is_None component) eqn:Hc.
  - destruct component; try discriminate. rewrite discover_no_component.
    repeat constructor.
  - rewrite discover_component by exact Hc.
    destruct (setup_component component hass_config); repeat constructor.
Qed.

Lemma load_platform_lock_free setup_component component platform info hass_config s :
  lock_free (effects (load_platform setup_component component platform info
                                    hass_config s)).
Proof.
  destruct info as [| | | | |l].
  1: { rewrite load_platform_none. apply discover_lock_free. }
  5: { destruct (heap s !! l) as [d|] eqn:Hl.
       - rewrite (load_platform_dict _ _ _ _ d) by exact Hl.
         apply discover_lock_free.
       - rewrite load_platform_dangling by exact Hl. constructor. }
  all: rewrite load_platform_not_dict by (reflexivity || discriminate);
    constructor.
Qed.

Lemma lock_free_held body :
  lock_free body ->
  outside_lock true (body ++ [LockRelease]) = [] /\
  under_lock true (body ++ [LockRelease]) = body /\
  lock_after true (body ++ [LockRelease]) = false.
Proof.
  induction 1 as [|e body He _ IH]; [by repeat split|].
  destruct IH as (IH1 & IH2 & IH3).
  destruct e; try discriminate; cbn; rewrite ?IH1, ?IH2, ?IH3; by repeat split.
Qed.

(** C9, as the spec states it, fails.  On the report [("belkin_wemo", info)]
    the loader call and the publication are both made while the lock is
    held, and nothing at all is done outside of it. *)
Lemma C9_dispatch_runs_under_lock :
  let tr := effects (new_service_listener always_loaded ex_config SERVICE_WEMO
                                          ex_info ex_store) in
  outside_lock false tr = [] /\
  under_lock false tr =
    [found_new_service SERVICE_WEMO ex_info;
     SetupComponent ex_config VNone;
     BusFire EVENT_PLATFORM_DISCOVERED
             {[ ATTR_SERVICE := VStr SERVICE_WEMO;
                ATTR_DISCOVERED := VTuple [VStr "wemo"; VNone] ]}].
Proof. vm_compute. split; reflexivity. Qed.

(** C9, amended.  [new_service_listener] holds the lock over its whole body:
    the log call, the registry lookup, the decision and the calls of
    [discover] and [load_platform] with all they do.  The lock is taken
    first and given back last, on a return and on an exception alike; every
    other call of the trace is made while it is held, and none outside. *)
Theorem C9_lock_held_throughout
    (setup_component : PyVal -> PyVal -> Outcome bool)
    (config : PyVal) (service : string) (info : PyVal) (s : Store) :
  let tr := effects (new_service_listener setup_component config service info s) in
  exists body,
    tr = LockAcquire :: body ++ [LockRelease] /\
    lock_free body /\
    head body = Some (found_new_service service info) /\
    under_lock false tr = body /\
    outside_lock false tr = [] /\
    lock_after false tr = false.
Proof.
  intros tr. subst tr.
  unfold new_service_listener at 1. unfold with_lock at 1. cbn [effects].
  match goal with |- context [LockAcquire :: effects ?b ++ _] =>
    set (body := effects b) end.
  assert (Hbody : lock_free body /\ head body = Some (found_new_service service info)).
  { subst body. unfold bind, emit. cbn -[discover load_platform].
    destruct (SERVICE_HANDLERS !! service) as [[component [platform|]]|];
      cbn -[discover load_platform].
    - split; [|reflexivity]. constructor; [reflexivity|].
      apply load_platform_lock_free.
    - split; [|reflexivity]. constructor; [reflexivity|].
      apply discover_lock_free.
    - split; [|reflexivity]. repeat constructor. }
  destruct Hbody as [Hfree Hhead].
  destruct (lock_free_held body Hfree) as (H1 & H2 & H3).
  exists body. cbn. by repeat split.
Qed.

(** * Starting the scan *)

Lemma scan_effects_app tr1 tr2 :
  scan_effects (tr1 ++ tr2) = (scan_effects tr1 ++ scan_effects tr2)%list.
Proof. apply filter_app. Qed.

Lemma scan_starts_scan_effects tr :
  scan_starts (scan_effects tr) = scan_starts tr.
Proof.
  unfold scan_starts, scan_effects. f_equal.
  induction tr as [|e tr IH]; [reflexivity|].
  rewrite (filter_cons (fun e => is_scan_effect e = true)).
  destruct (decide (is_scan_effect e = true)) as [He|He].
  - rewrite !filter_cons. destruct (decide (is_scan_start e = true)); by rewrite IH.
  - rewrite IH. rewrite filter_cons_False; [reflexivity|].
    intros Hs. apply He. by destruct e.
Qed.

Lemma run_listener_spec l event s :
  outcome (run_listener l event s) = Returned tt /\
  store (run_listener l event s) = s /\
  scan_effects (effects (run_listener l event s)) = scan_of l.
Proof.
  destruct l as [service callback|config|name]; cbn -[discovery_event_listener].
  - rewrite discovery_event_listener_run.
    destruct (data event !! ATTR_SERVICE) as [v|];
      [destruct (in_tuple v service)|]; by repeat split.
  - by repeat split.
  - by repeat split.
Qed.

Lemma run_listeners_spec ls event s :
  outcome (run_listeners ls event s) = Returned tt /\
  store (run_listeners ls event s) = s /\
  scan_effects (effects (run_listeners ls event s)) = concat (scan_of <$> ls).
Proof.
  induction ls as [|l ls IH]; [by repeat split|].
  destruct (run_listener_spec l event s) as (Ho & Hs & Hsc).
  destruct IH as (IHo & IHs & IHsc).
  cbn [run_listeners]. unfold bind. rewrite Ho, Hs. cbn [outcome store effects].
  rewrite scan_effects_app, Hsc, IHsc. by repeat split.
Qed.

Lemma no_scan_starter_filter (P : Registration -> Prop)
    `{!forall r, Decision (P r)} regs :
  no_scan_starter regs = true -> no_scan_starter (filter P regs) = true.
Proof.
  unfold no_scan_starter. rewrite !forallb_forall. intros Hall r Hr.
  apply Hall. apply list_elem_of_In. apply list_elem_of_In in Hr.
  by apply list_elem_of_filter in Hr as [_ ?].
Qed.

Lemma no_scan_starter_scan_of regs :
  no_scan_starter regs = true ->
  concat (scan_of <$> (reg_listener <$> regs)) = [].
Proof.
  induction regs as [|r regs IH]; [done|]. cbn.
  intros [Hr Hregs]%andb_true_iff. rewrite IH by exact Hregs.
  destruct (reg_listener r); try discriminate; reflexivity.
Qed.

(** Delivery on a bus without [start_discovery] leaves the scanner alone. *)
Lemma bus_deliver_spent event s :
  no_scan_starter (bus s) = true ->
  outcome (bus_deliver event s) = Returned tt /\
  scan_effects (effects (bus_deliver event s)) = [] /\
  no_scan_starter (bus (store (bus_deliver event s))) = true.
Proof.
  intros Hs. unfold bus_deliver.
  match goal with |- context [run_listeners ?ls ?e ?st] =>
    destruct (run_listeners_spec ls e st) as (Ho & Hst & Hsc) end.
  rewrite Ho, Hst, Hsc. split; [reflexivity|]. split.
  - apply no_scan_starter_scan_of. by apply no_scan_starter_filter.
  - cbn. by apply no_scan_starter_filter.
Qed.

Lemma deliver_all_spent events s :
  no_scan_starter (bus s) = true ->
  outcome (deliver_all events s) = Returned tt /\
  scan_effects (effects (deliver_all events s)) = [] /\
  no_scan_starter (bus (store (deliver_all events s))) = true.
Proof.
  revert s. induction events as [|e es IH]; intros s Hs; [by repeat split|].
  destruct (bus_deliver_spent e s Hs) as (Ho & Hsc & Hb).
  destruct (IH _ Hb) as (IHo & IHsc & IHb).
  cbn [deliver_all]. unfold bind. rewrite Ho. cbn [outcome store effects].
  rewrite scan_effects_app, Hsc, IHsc. by repeat split.
Qed.

(** Delivery on a bus where [start_discovery] waits, registered last and
    once: the start signal runs it and takes it off, any other event leaves
    it waiting. *)
Lemma bus_deliver_armed event config regs s :
  bus s = (regs ++ [start_registration config])%list ->
  no_scan_starter regs = true ->
  let r := bus_deliver event s in
  outcome r = Returned tt /\
  if bool_decide (event_type event = EVENT_HOMEASSISTANT_START)
  then scan_effects (effects r) = scan_started config /\
       no_scan_starter (bus (store r)) = true
  else scan_effects (effects r) = [] /\
       exists regs', bus (store r) = (regs' ++ [start_registration config])%list /\
                     no_scan_starter regs' = true.
Proof.
  intros Hbus Hregs r. subst r. unfold bus_deliver.
  match goal with |- context [run_listeners ?ls ?e ?st] =>
    destruct (run_listeners_spec ls e st) as (Ho & Hst & Hsc) end.
  rewrite Ho, Hst, Hsc. split; [reflexivity|].
  assert (Hhit :
    filter (fun r => listens_to (event_type event) r = true)
           [start_registration config] =
    if bool_decide (event_type event = EVENT_HOMEASSISTANT_START)
    then [start_registration config] else []).
  { case_bool_decide as Ht.
    - rewrite filter_cons_True; [reflexivity|].
      unfold listens_to. cbn. by apply bool_decide_eq_true_2.
    - rewrite filter_cons_False; [reflexivity|].
      unfold listens_to. cbn. rewrite bool_decide_eq_false_2; [discriminate|].
      congruence. }
  assert (Hkept :
    filter (fun r => listens_to (event_type event) r && reg_once r = false)
           [start_registration config] =
    if bool_decide (event_type event = EVENT_HOMEASSISTANT_START)
    then [] else [start_registration config]).
  { case_bool_decide as Ht.
    - rewrite filter_cons_False; [reflexivity|].
      unfold listens_to. cbn. rewrite bool_decide_eq_true_2; [discriminate|].
      congruence.
    - rewrite filter_cons_True; [reflexivity|].
      unfold listens_to. cbn. rewrite bool_decide_eq_false_2; [reflexivity|].
      congruence. }
  rewrite Hbus, !filter_app, Hhit, Hkept. cbn [set_bus bus].
  rewrite !fmap_app, concat_app.
  rewrite no_scan_starter_scan_of by (by apply no_scan_starter_filter).
  case_bool_decide as Ht; cbn.
  - split; [reflexivity|]. rewrite app_nil_r. by apply no_scan_starter_filter.
  - split; [reflexivity|]. eexists. split; [reflexivity|].
    by apply no_scan_starter_filter.
Qed.

Lemma deliver_all_armed events config regs s :
  bus s = (regs ++ [start_registration config])%list ->
  no_scan_starter regs = true ->
  let r := deliver_all events s in
  outcome r = Returned tt /\
  if bool_decide (EVENT_HOMEASSISTANT_START ∈ event_type <$> events)
  then scan_effects (effects r) = scan_started config /\
       no_scan_starter (bus (store r)) = true
  else scan_effects (effects r) = [] /\
       exists regs', bus (store r) = (regs' ++ [start_registration config])%list /\
                     no_scan_starter regs' = true.
Proof.
  revert regs s. induction events as [|e es IH]; intros regs s Hbus Hregs r; subst r.
  { split; [reflexivity|]. rewrite bool_decide_eq_false_2 by apply not_elem_of_nil.
    split; [reflexivity|]. by exists regs. }
  destruct (bus_deliver_armed e config regs s Hbus Hregs) as (Ho & Hcase).
  cbn [deliver_all]. unfold bind. rewrite Ho. cbn [outcome store effects].
  rewrite scan_effects_app, fmap_cons.
  case_bool_decide as Ht.
  - destruct Hcase as (Hsc & Hb).
    destruct (deliver_all_spent es _ Hb) as (Ho' & Hsc' & Hb').
    rewrite Ho', Hsc, Hsc', app_nil_r. split; [reflexivity|].
    rewrite bool_decide_eq_true_2 by (rewrite Ht; apply list_elem_of_here).
    by split.
  - destruct Hcase as (Hsc & regs' & Hb & Hregs').
    destruct (IH regs' _ Hb Hregs') as (Ho' & Hcase').
    rewrite Ho', Hsc. split; [reflexivity|]. cbn [app].
    assert (Hiff : bool_decide (EVENT_HOMEASSISTANT_START ∈ event_type e :: (event_type <$> es))
                   = bool_decide (EVENT_HOMEASSISTANT_START ∈ event_type <$> es)).
    { apply bool_decide_ext. rewrite elem_of_cons. split; [|tauto].
      intros [?|?]; [congruence|done]. }
    rewrite Hiff. exact Hcase'.
Qed.

(** C8.  [setup] returns [True] having registered [start_discovery] once,
    as a one-shot listener for the start signal, and having left the scanner
    alone.  From there, whatever events are published before the first start
    signal leave the scanner alone; the first start signal creates the
    scanner with the scan interval, gives it [new_service_listener] and
    starts it; and whatever is published afterwards, further start signals
    included, leaves the scanner alone.  Over any sequence of events the scan
    is started once if a start signal is among them and not at all
    otherwise. *)
Theorem C8_scan_started_once
    (config : PyVal) (s : Store) (before after : list Event) (start : Event) :
  no_scan_starter (bus s) = true ->
  event_type start = EVENT_HOMEASSISTANT_START ->
  EVENT_HOMEASSISTANT_START ∉ event_type <$> before ->
  let r0 := setup config s in
  let r1 := deliver_all before (store r0) in
  let r2 := bus_deliver start (store r1) in
  let r3 := deliver_all after (store r2) in
  (outcome r0 = Returned true /\
   heap (store r0) = heap s /\
   bus (store r0) = (bus s ++ [start_registration config])%list /\
   scan_effects (effects r0) = []) /\
  scan_effects (effects r1) = [] /\
  scan_effects (effects r2) = scan_started config /\
  scan_effects (effects r3) = [] /\
  (forall events,
     scan_starts (effects (deliver_all events (store r0))) =
     if bool_decide (EVENT_HOMEASSISTANT_START ∈ event_type <$> events)
     then 1 else 0).
Proof.
  intros Hs Hstart Hbefore r0 r1 r2 r3.
  assert (Hbus0 : bus (store r0) = (bus s ++ [start_registration config])%list)
    by reflexivity.
  split; [by repeat split|].
  destruct (deliver_all_armed before config (bus s) (store r0) Hbus0 Hs)
    as (_ & Hcase1).
  rewrite bool_decide_eq_false_2 in Hcase1 by exact Hbefore.
  destruct Hcase1 as (Hsc1 & regs1 & Hbus1 & Hregs1).
  split; [exact Hsc1|].
  destruct (bus_deliver_armed start config regs1 (store r1) Hbus1 Hregs1)
    as (_ & Hcase2).
  rewrite bool_decide_eq_true_2 in Hcase2 by exact Hstart.
  destruct Hcase2 as (Hsc2 & Hbus2).
  split; [exact Hsc2|].
  destruct (deliver_all_spent after (store r2) Hbus2) as (_ & Hsc3 & _).
  split; [exact Hsc3|].
  intros events.
  destruct (deliver_all_armed events config (bus s) (store r0) Hbus0 Hs)
    as (_ & Hcase).
  rewrite <- scan_starts_scan_effects.
  case_bool_decide; destruct Hcase as (-> & _); reflexivity.
Qed.

Lemma C8_scan_started_once_witness :
  no_scan_starter (bus ex_store) = true /\
  let r0 := setup ex_config ex_store in
  let again := mkEvent EVENT_HOMEASSISTANT_START ∅ in
  scan_effects (effects (bus_deliver again (store r0))) = scan_started ex_config /\
  scan_effects
    (effects (deliver_all [again; again]
                          (store (bus_deliver again (store r0))))) = [].
Proof.
  split; [reflexivity|].
  pose proof (C8_scan_started_once ex_config ex_store []
                [mkEvent EVENT_HOMEASSISTANT_START ∅;
                 mkEvent EVENT_HOMEASSISTANT_START ∅]
                (mkEvent EVENT_HOMEASSISTANT_START ∅)) as H.
  cbv zeta in H.
  destruct H as (_ & _ & H2 & H3 & _);
    [reflexivity | reflexivity | apply not_elem_of_nil |].
  split; [exact H2 | exact H3].
Defined.

(** * Further properties of [discover] *)

Lemma discover_data_service service discovered :
  discover_data service discovered !! ATTR_SERVICE = Some (VStr service).
Proof.
  unfold discover_data. destruct (is_None discovered).
  - apply lookup_singleton_eq.
  - rewrite lookup_insert_ne by discriminate. apply lookup_singleton_eq.
Qed.

Lemma discover_data_discovered service discovered :
  discover_data service discovered !! ATTR_DISCOVERED =
  if is_None discovered then None else Some discovered.
Proof.
  unfold discover_data. destruct (is_None discovered).
  - apply lookup_singleton_ne. discriminate.
  - apply lookup_insert_eq.
Qed.

Lemma discover_data_get service discovered :
  dict_get (discover_data service discovered) ATTR_DISCOVERED = discovered.
Proof.
  unfold dict_get. rewrite discover_data_discovered.
  by destruct discovered.
Qed.

(** X1.  When a component is given and the loader raises, [discover] raises
    the loader's exception: the loader call is the only call made and no
    event is fired. *)
Theorem X1_discover_loader_failure
    (setup_component : PyVal -> PyVal -> Outcome bool)
    (service : string) (discovered component hass_config : PyVal) (s : Store)
    (e : PyExn) :
  component <> VNone ->
  setup_component component hass_config = Raised e ->
  let r := discover setup_component service discovered component hass_config s in
  outcome r = Raised e /\
  effects r = [SetupComponent component hass_config] /\
  fired (effects r) = [].
Proof.
  intros Hc He r. subst r.
  rewrite discover_component by (by destruct component).
  rewrite He. by repeat split.
Qed.

Lemma X1_discover_loader_failure_witness :
  VStr "wemo" <> VNone /\
  never_loaded (VStr "wemo") ex_config = Raised (OtherError "ImportError") /\
  outcome (discover never_loaded SERVICE_WEMO ex_info (VStr "wemo") ex_config
                    ex_store) = Raised (OtherError "ImportError") /\
  effects (discover never_loaded SERVICE_WEMO ex_info (VStr "wemo") ex_config
                    ex_store) = [SetupComponent (VStr "wemo") ex_config].
Proof.
  split; [discriminate|]. split; [reflexivity|].
  pose proof (X1_discover_loader_failure never_loaded SERVICE_WEMO ex_info
                (VStr "wemo") ex_config ex_store (OtherError "ImportError")) as H.
  cbv zeta in H. destruct H as (Ho & He & _); [discriminate | reflexivity |].
  split; [exact Ho | exact He].
Defined.


(** * Further properties of [load_platform] *)

(** X3.  Given an [info] that is neither [None] nor a dict (a tuple, a
    string, a number), [load_platform] raises [TypeError] on the item
    assignment: the loader is not called, nothing is fired and the store is
    as it was. *)
Theorem X3_load_platform_rejects_non_mapping
    (setup_component : PyVal -> PyVal -> Outcome bool)
    (component platform : string) (info hass_config : PyVal) (s : Store) :
  info <> VNone ->
  (forall l, info <> VRef l) ->
  let r := load_platform setup_component component platform info hass_config s in
  outcome r =
    Raised (TypeError ("'" +:+ type_name info +:+
                       "' object does not support item assignment")) /\
  effects r = [] /\
  store r = s.
Proof.
  intros Hn Hr r. subst r.
  rewrite load_platform_not_dict by (by destruct info).
  by repeat split.
Qed.

Lemma X3_load_platform_rejects_non_mapping_witness :
  VStr "10.0.0.5" <> VNone /\
  (forall l, VStr "10.0.0.5" <> VRef l) /\
  outcome (load_platform always_loaded "light" "hue" (VStr "10.0.0.5") ex_config
                         ex_store) =
    Raised (TypeError "'str' object does not support item assignment").
Proof.
  split; [discriminate|]. split; [discriminate|].
  apply (X3_load_platform_rejects_non_mapping always_loaded "light" "hue"
           (VStr "10.0.0.5") ex_config ex_store); discriminate.
Defined.

(** X4.  When the loader raises, [load_platform] raises the loader's
    exception and fires nothing, but the caller's dict has been written to
    all the same: the item assignment comes before the loader call. *)
Theorem X4_load_platform_loader_failure
    (setup_component : PyVal -> PyVal -> Outcome bool)
    (component platform : string) (l : loc) (d : Dict) (hass_config : PyVal)
    (s : Store) (e : PyExn) :
  heap s !! l = Some d ->
  setup_component (VStr component) hass_config = Raised e ->
  let r := load_platform setup_component component platform (VRef l)
                         hass_config s in
  outcome r = Raised e /\
  fired (effects r) = [] /\
  heap (store r) !! l = Some (<[LOAD_PLATFORM := VStr platform]> d).
Proof.
  intros Hl He r. subst r.
  rewrite (load_platform_dict _ _ _ _ d) by exact Hl.
  rewrite discover_component by reflexivity. rewrite He. cbn.
  split; [reflexivity|]. split; [reflexivity|]. apply lookup_insert_eq.
Qed.

Lemma X4_load_platform_loader_failure_witness :
  heap ex_store !! 1%positive = Some {[ "host" := VStr "10.0.0.5" ]} /\
  never_loaded (VStr "light") ex_config = Raised (OtherError "ImportError") /\
  heap (store (load_platform never_loaded "light" "hue" ex_info ex_config
                             ex_store)) !! 1%positive =
    Some (<[LOAD_PLATFORM := VStr "hue"]> {[ "host" := VStr "10.0.0.5" ]}).
Proof.
  split; [vm_compute; reflexivity|]. split; [reflexivity|].
  apply (X4_load_platform_loader_failure never_loaded "light" "hue" 1%positive
           {[ "host" := VStr "10.0.0.5" ]} ex_config ex_store
           (OtherError "ImportError")); [vm_compute|]; reflexivity.
Defined.

Lemma fresh_not_allocated (h : gmap loc Dict) (l : loc) (d : Dict) :
  h !! l = Some d -> fresh (dom h) <> l.
Proof.
  intros Hl Heq. apply (is_fresh (dom h)). rewrite Heq.
  by apply elem_of_dom_2 with d.
Qed.

(** What a call of [load_platform] that returns has done: [info] was [None]
    or a dict, the dict [l] now holds [platform] under [load_platform], and
    the loader call was followed by one event with [l] as payload. *)
Lemma load_platform_returned setup_component component platform info hass_config s :
  outcome (load_platform setup_component component platform info hass_config s)
    = Returned tt ->
  exists (l : loc) (d : Dict),
    ((info = VNone /\ heap s !! l = None /\ d = {[ LOAD_PLATFORM := VStr platform ]}) \/
     (exists d0, info = VRef l /\ heap s !! l = Some d0 /\
                 d = <[LOAD_PLATFORM := VStr platform]> d0)) /\
    store (load_platform setup_component component platform info hass_config s)
      = set_heap (<[l := d]> (heap s)) s /\
    effects (load_platform setup_component component platform info hass_config s)
      = [SetupComponent (VStr component) hass_config;
         BusFire EVENT_PLATFORM_DISCOVERED
                 (discover_data (LOAD_PLATFORM +:+ "." +:+ component) (VRef l))].
Proof.
  destruct info as [| | | | |l].
  1: { rewrite load_platform_none. cbv zeta.
       rewrite discover_component by reflexivity.
       destruct (setup_component (VStr component) hass_config); [|discriminate].
       intros _. eexists _, _. split; [left|split; reflexivity].
       split; [reflexivity|]. split; [|reflexivity].
       apply not_elem_of_dom. apply is_fresh. }
  5: { destruct (heap s !! l) as [d0|] eqn:Hl.
       - rewrite (load_platform_dict _ _ _ _ d0) by exact Hl.
         rewrite discover_component by reflexivity.
         destruct (setup_component (VStr component) hass_config); [|discriminate].
         intros _. eexists _, _. split; [right|split; reflexivity].
         exists d0. by repeat split.
       - rewrite load_platform_dangling by exact Hl. discriminate. }
  all: rewrite load_platform_not_dict by (reflexivity || discriminate);
    discriminate.
Qed.

(** X6.  Two calls of [load_platform] on the same dict, the loader
    returning: the platform of the second call is the one found in the dict
    afterwards, the first one leaving no trace under [load_platform]; each
    call fires its event, and both events carry the same dict. *)
Theorem X6_load_platform_last_platform_wins
    (setup_component : PyVal -> PyVal -> Outcome bool)
    (component platform1 platform2 : string) (l : loc) (d : Dict)
    (hass_config : PyVal) (s : Store) (b : bool) :
  heap s !! l = Some d ->
  setup_component (VStr component) hass_config = Returned b ->
  let r1 := load_platform setup_component component platform1 (VRef l)
                          hass_config s in
  let r2 := load_platform setup_component component platform2 (VRef l)
                          hass_config (store r1) in
  let event :=
    BusFire EVENT_PLATFORM_DISCOVERED
            (<[ ATTR_DISCOVERED := VRef l ]>
               {[ ATTR_SERVICE := VStr (LOAD_PLATFORM +:+ "." +:+ component) ]}) in
  deref (store r2) (VRef l) = Some (<[LOAD_PLATFORM := VStr platform2]> d) /\
  fired (effects r1) = [event] /\
  fired (effects r2) = [event].
Proof.
  intros Hl Hb r1 r2 event. subst r1 r2 event.
  rewrite (load_platform_dict _ _ platform1 _ d) by exact Hl.
  rewrite (discover_component _ _ _ _ _ (set_heap _ s)) by reflexivity.
  rewrite Hb. cbn [store effects].
  rewrite (load_platform_dict _ _ platform2 _ (<[LOAD_PLATFORM := VStr platform1]> d))
    by apply lookup_insert_eq.
  rewrite discover_component by reflexivity. rewrite Hb.
  unfold deref. cbn [store effects heap set_heap].
  rewrite !insert_insert_eq.
  split; [apply lookup_insert_eq|]. split; reflexivity.
Qed.

Lemma X6_load_platform_last_platform_wins_witness :
  heap ex_store !! 1%positive = Some {[ "host" := VStr "10.0.0.5" ]} /\
  always_loaded (VStr "media_player") ex_config = Returned true /\
  deref (store (load_platform always_loaded "media_player" "sonos" ex_info
                  ex_config
                  (store (load_platform always_loaded "media_player" "cast"
                                        ex_info ex_config ex_store)))) ex_info =
  Some (<[LOAD_PLATFORM := VStr "sonos"]> {[ "host" := VStr "10.0.0.5" ]}).
Proof.
  split; [vm_compute; reflexivity|]. split; [reflexivity|].
  refine (proj1 (X6_load_platform_last_platform_wins always_loaded
                   "media_player" "cast" "sonos" 1%positive
                   {[ "host" := VStr "10.0.0.5" ]} ex_config ex_store true _ _));
    [vm_compute|]; reflexivity.
Defined.

(** X7.  Two calls of [load_platform] without [info], the loader returning:
    each event carries a dict of its own.  The two payloads are different
    objects, and after both calls the first still holds the first platform
    and the second the second. *)
Theorem X7_load_platform_fresh_payloads
    (setup_component : PyVal -> PyVal -> Outcome bool)
    (component1 platform1 component2 platform2 : string)
    (hass_config : PyVal) (s : Store) (b1 b2 : bool) :
  setup_component (VStr component1) hass_config = Returned b1 ->
  setup_component (VStr component2) hass_config = Returned b2 ->
  let r1 := load_platform setup_component component1 platform1 VNone
                          hass_config s in
  let r2 := load_platform setup_component component2 platform2 VNone
                          hass_config (store r1) in
  exists l1 l2 : loc,
    l1 <> l2 /\
    fired (effects r1) =
      [BusFire EVENT_PLATFORM_DISCOVERED
               (discover_data (LOAD_PLATFORM +:+ "." +:+ component1) (VRef l1))] /\
    fired (effects r2) =
      [BusFire EVENT_PLATFORM_DISCOVERED
               (discover_data (LOAD_PLATFORM +:+ "." +:+ component2) (VRef l2))] /\
    deref (store r2) (VRef l1) = Some {[ LOAD_PLATFORM := VStr platform1 ]} /\
    deref (store r2) (VRef l2) = Some {[ LOAD_PLATFORM := VStr platform2 ]}.
Proof.
  intros Hb1 Hb2 r1 r2. subst r1 r2.
  rewrite (load_platform_none _ component1). cbv zeta.
  rewrite (discover_component _ _ _ _ _ (set_heap _ s)) by reflexivity.
  rewrite Hb1. cbn [store effects].
  rewrite load_platform_none. cbv zeta.
  rewrite discover_component by reflexivity. rewrite Hb2. cbn.
  set (l1 := fresh (dom (heap s))).
  set (h1 := <[l1 := ({[ LOAD_PLATFORM := VStr platform1 ]} : Dict)]> (heap s)).
  set (l2 := fresh (dom h1)).
  assert (Hne : l2 <> l1).
  { apply fresh_not_allocated with ({[ LOAD_PLATFORM := VStr platform1 ]} : Dict).
    apply lookup_insert_eq. }
  exists l1, l2. split; [congruence|]. split; [reflexivity|]. split; [reflexivity|].
  split.
  - rewrite lookup_insert_ne by exact Hne. apply lookup_insert_eq.
  - apply lookup_insert_eq.
Qed.

Lemma X7_load_platform_fresh_payloads_witness :
  always_loaded (VStr "light") ex_config = Returned true /\
  always_loaded (VStr "media_player") ex_config = Returned true /\
  exists l1 l2 : loc,
    l1 <> l2 /\
    deref (store (load_platform always_loaded "media_player" "sonos" VNone
                    ex_config
                    (store (load_platform always_loaded "light" "hue" VNone
                                          ex_config ex_store))))
          (VRef l1) = Some {[ LOAD_PLATFORM := VStr "hue" ]}.
Proof.
  split; [reflexivity|]. split; [reflexivity|].
  destruct (X7_load_platform_fresh_payloads always_loaded "light" "hue"
              "media_player" "sonos" ex_config ex_store true true
              eq_refl eq_refl) as (l1 & l2 & Hne & _ & _ & H1 & _).
  exists l1, l2. split; [exact Hne | exact H1].
Defined.

(** * From publication to subscription *)

Lemma append_cancel_prefix (p a b : string) : p +:+ a = p +:+ b -> a = b.
Proof.
  induction p as [|c p IH]; cbn; [exact id|].
  intros H. injection H as H. by apply IH.
Qed.

Lemma listener_on_discover_data services callback service discovered s :
  discovery_event_listener services callback
    (mkEvent EVENT_PLATFORM_DISCOVERED (discover_data service discovered)) s =
  mkResult (Returned tt) s
    (if bool_decide (service ∈ services)
     then [CallbackCall callback (VStr service) discovered] else []).
Proof.
  rewrite discovery_event_listener_run. cbn [data].
  rewrite discover_data_service, discover_data_get. cbn [in_tuple].
  by destruct (bool_decide (service ∈ services)).
Qed.

Lemma discover_fired setup_component service discovered component hass_config s :
  fired (effects (discover setup_component service discovered component
                           hass_config s)) =
  match outcome (discover setup_component service discovered component
                          hass_config s) with
  | Returned _ =>
      [BusFire EVENT_PLATFORM_DISCOVERED (discover_data service discovered)]
  | Raised _ => []
  end.
Proof.
  destruct (is_None component) eqn:Hc.
  - destruct component; try discriminate. reflexivity.
  - rewrite discover_component by exact Hc.
    by destruct (setup_component component hass_config).
Qed.

(** X8.  What [discover] publishes is what a listener of [listen] hands on.
    When [discover] returns, it has fired one event; the listener that
    [listen] registers for [services], given that event, calls the callback
    once with the service and with the very [discovered] that [discover] was
    given ([None] when it was given none) if the service is the string or in
    the list that was requested, and returns without a call if it is not. *)
Theorem X8_discover_reaches_listener
    (setup_component : PyVal -> PyVal -> Outcome bool)
    (service : string) (discovered component hass_config : PyVal) (s : Store)
    (services : ServiceArg) (callback : nat) (s0 s' : Store) :
  outcome (discover setup_component service discovered component hass_config s)
    = Returned tt ->
  let requested : Prop :=
    match services with
    | OneService x => service = x
    | ManyServices l => service ∈ l
    end in
  exists (d : Dict) (registered : list string),
    fired (effects (discover setup_component service discovered component
                             hass_config s))
      = [BusFire EVENT_PLATFORM_DISCOVERED d] /\
    bus (store (listen services callback s0)) =
      (bus s0 ++ [mkRegistration EVENT_PLATFORM_DISCOVERED
                    (DiscoveryEventListener registered callback) false])%list /\
    (requested ->
     effects (discovery_event_listener registered callback
                (mkEvent EVENT_PLATFORM_DISCOVERED d) s') =
     [CallbackCall callback (VStr service) discovered]) /\
    (~ requested ->
     discovery_event_listener registered callback
       (mkEvent EVENT_PLATFORM_DISCOVERED d) s' =
     mkResult (Returned tt) s' []).
Proof.
  intros Hret requested.
  exists (discover_data service discovered), (service_tuple services).
  split; [rewrite discover_fired, Hret; reflexivity|].
  split; [reflexivity|].
  assert (Hreq : requested <-> service ∈ service_tuple services).
  { subst requested. destruct services as [x|l]; cbn.
    - by rewrite list_elem_of_singleton.
    - reflexivity. }
  rewrite listener_on_discover_data. split.
  - intros Hin%Hreq. cbn [effects]. by rewrite bool_decide_eq_true_2.
  - intros Hno. rewrite bool_decide_eq_false_2; [reflexivity|].
    intros Hin. apply Hno. by apply Hreq.
Qed.

Lemma X8_discover_reaches_listener_witness :
  outcome (discover always_loaded SERVICE_WEMO ex_info (VStr "wemo") ex_config
                    ex_store) = Returned tt /\
  exists (d : Dict) (registered : list string),
    fired (effects (discover always_loaded SERVICE_WEMO ex_info (VStr "wemo")
                             ex_config ex_store))
      = [BusFire EVENT_PLATFORM_DISCOVERED d] /\
    bus (store (listen (ManyServices [SERVICE_NETGEAR; SERVICE_WEMO]) 7
                       ex_store)) =
      [mkRegistration EVENT_PLATFORM_DISCOVERED
                      (DiscoveryEventListener registered 7) false] /\
    effects (discovery_event_listener registered 7
               (mkEvent EVENT_PLATFORM_DISCOVERED d) ex_store) =
    [CallbackCall 7 (VStr SERVICE_WEMO) ex_info].
Proof.
  split; [reflexivity|].
  destruct (X8_discover_reaches_listener always_loaded SERVICE_WEMO ex_info
              (VStr "wemo") ex_config ex_store
              (ManyServices [SERVICE_NETGEAR; SERVICE_WEMO]) 7 ex_store ex_store
              eq_refl) as (d & registered & Hf & Hbus & Hcall & _).
  exists d, registered. split; [exact Hf|]. split; [exact Hbus|].
  apply Hcall. apply list_elem_of_further, list_elem_of_here.
Defined.

(** X9.  What [load_platform] publishes reaches the listeners of its
    component and no other.  When [load_platform] returns, a listener made
    for ["load_platform." + component'], given the event fired, calls its
    callback once if [component'] is the component of the call, and not at
    all if it is another one; the dict it is handed holds the platform under
    [load_platform], and is the caller's own dict when [info] was given. *)
Theorem X9_load_platform_reaches_component_listener
    (setup_component : PyVal -> PyVal -> Outcome bool)
    (component platform : string) (info hass_config : PyVal) (s : Store)
    (component' : string) (callback : nat) :
  outcome (load_platform setup_component component platform info hass_config s)
    = Returned tt ->
  let r := load_platform setup_component component platform info hass_config s in
  exists (l : loc) (d data : Dict),
    fired (effects r) = [BusFire EVENT_PLATFORM_DISCOVERED data] /\
    (info = VNone \/ info = VRef l) /\
    deref (store r) (VRef l) = Some d /\
    d !! LOAD_PLATFORM = Some (VStr platform) /\
    effects (discovery_event_listener
               (service_tuple (OneService (LOAD_PLATFORM +:+ "." +:+ component')))
               callback (mkEvent EVENT_PLATFORM_DISCOVERED data) (store r)) =
      if bool_decide (component' = component)
      then [CallbackCall callback
                         (VStr (LOAD_PLATFORM +:+ "." +:+ component)) (VRef l)]
      else [].
Proof.
  intros Hret r. subst r.
  destruct (load_platform_returned _ _ _ _ _ _ Hret) as (l & d & Hinfo & Hst & Hef).
  exists l, d, (discover_data (LOAD_PLATFORM +:+ "." +:+ component) (VRef l)).
  rewrite Hst, Hef. split; [reflexivity|]. split.
  { destruct Hinfo as [(-> & _)|(d0 & -> & _)]; [by left | by right]. }
  split; [apply lookup_insert_eq|]. split.
  { destruct Hinfo as [(_ & _ & ->)|(d0 & _ & _ & ->)].
    - apply lookup_singleton_eq.
    - apply lookup_insert_eq. }
  rewrite listener_on_discover_data. cbn [effects service_tuple].
  apply (f_equal (fun b : bool =>
    if b then [CallbackCall callback
                 (VStr (LOAD_PLATFORM +:+ "." +:+ component)) (VRef l)]
    else [])).
  apply bool_decide_ext. rewrite list_elem_of_singleton. split.
  - intros H. symmetry. do 2 apply append_cancel_prefix in H. exact H.
  - by intros ->.
Qed.

Lemma X9_load_platform_reaches_component_listener_witness :
  outcome (load_platform always_loaded "light" "hue" ex_info ex_config ex_store)
    = Returned tt /\
  exists (l : loc) (d : Dict),
    deref (store (load_platform always_loaded "light" "hue" ex_info ex_config
                                ex_store)) (VRef l) = Some d /\
    d !! LOAD_PLATFORM = Some (VStr "hue").
Proof.
  split; [reflexivity|].
  destruct (X9_load_platform_reaches_component_listener always_loaded "light"
              "hue" ex_info ex_config ex_store "media_player" 7 eq_refl)
    as (l & d & _ & _ & _ & Hd & Hp & _).
  exists l, d. split; [exact Hd | exact Hp].
Defined.

(** * Further properties of the listener of [listen] *)



(** * Further properties of [new_service_listener] *)

(** X12.  Whatever it is called with and however the loader answers,
    [new_service_listener] fires at most one event and calls the loader at
    most once. *)
Theorem X12_new_service_listener_at_most_once
    (setup_component : PyVal -> PyVal -> Outcome bool)
    (config : PyVal) (service : string) (info : PyVal) (s : Store) :
  let r := new_service_listener setup_component config service info s in
  length (fired (effects r)) <= 1 /\
  length (loads (effects r)) <= 1.
Proof.
  intros r. subst r.
  destruct (SERVICE_HANDLERS !! service) as [[component [platform|]]|] eqn:Hs.
  - rewrite (new_service_listener_platform _ _ _ _ component platform) by exact Hs.
    split; compute; lia.
  - rewrite (new_service_listener_no_platform _ _ _ _ component) by exact Hs.
    unfold with_lock, bind, emit, found_new_service. cbn -[discover].
    destruct (is_None config) eqn:Hc.
    + destruct config; try discriminate. split; compute; lia.
    + rewrite discover_component by exact Hc.
      destruct (setup_component config VNone); split; compute; lia.
  - rewrite new_service_listener_unknown by exact Hs.
    split; compute; lia.
Qed.

(** X13.  The [info] that [new_service_listener] is called with goes into
    the log and nowhere else: two calls that differ in [info] only have the
    same outcome, leave the same store and make the same calls after the log
    entry. *)
Theorem X13_new_service_listener_logs_info_only
    (setup_component : PyVal -> PyVal -> Outcome bool)
    (config : PyVal) (service : string) (info1 info2 : PyVal) (s : Store) :
  let r1 := new_service_listener setup_component config service info1 s in
  let r2 := new_service_listener setup_component config service info2 s in
  outcome r1 = outcome r2 /\
  store r1 = store r2 /\
  exists rest,
    effects r1 = LockAcquire :: found_new_service service info1 :: rest /\
    effects r2 = LockAcquire :: found_new_service service info2 :: rest.
Proof.
  intros r1 r2. subst r1 r2.
  unfold new_service_listener, with_lock, bind, emit.
  cbn -[discover load_platform].
  split; [reflexivity|]. split; [reflexivity|].
  eexists. split; reflexivity.
Qed.

(** X14.  With a [config] that is not [None], no event is fired by
    [new_service_listener] before a call of the loader has returned: where
    the loader raises, or the service is not one to publish for, nothing is
    fired at all. *)
Theorem X14_new_service_listener_load_precedes_fire
    (setup_component : PyVal -> PyVal -> Outcome bool)
    (config : PyVal) (service : string) (info : PyVal) (s : Store) :
  config <> VNone ->
  let r := new_service_listener setup_component config service info s in
  loads_precede_fires setup_component false (effects r) = true /\
  (fired (effects r) = [] \/
   exists b, setup_component config VNone = Returned b /\
             loads (effects r) = [SetupComponent config VNone]).
Proof.
  intros Hc r. subst r.
  assert (Hc' : is_None config = false) by (by destruct config).
  destruct (SERVICE_HANDLERS !! service) as [[component [platform|]]|] eqn:Hs.
  - rewrite (new_service_listener_platform _ _ _ _ component platform) by exact Hs.
    unfold found_new_service. cbn. split; [reflexivity|by left].
  - rewrite (new_service_listener_no_platform_trace _ _ _ _ component)
      by assumption.
    unfold found_new_service.
    destruct (setup_component config VNone) as [b|e] eqn:Hsc; cbn; rewrite ?Hsc.
    + split; [reflexivity|]. right. by exists b.
    + split; [reflexivity|by left].
  - rewrite new_service_listener_unknown by exact Hs.
    unfold found_new_service. cbn. split; [reflexivity|by left].
Qed.

Lemma X14_new_service_listener_load_precedes_fire_witness :
  ex_config <> VNone /\
  loads_precede_fires always_loaded false
    (effects (new_service_listener always_loaded ex_config SERVICE_NETGEAR
                                   ex_info ex_store)) = true.
Proof.
  split; [discriminate|].
  apply (X14_new_service_listener_load_precedes_fire always_loaded ex_config
           SERVICE_NETGEAR ex_info ex_store). discriminate.
Defined.
